(** * Differential-privacy attack-count query: a shallow embedding

    The development embeds [app.py] (the Laplace release engine
    [apply_differential_privacy] and the [/query] handler) and
    [fetch_day_attacks.py] (the day-bucketed collector).

    Conventions.
    - Python [int] is [Z]; Python [float] is idealised as an exact rational
      [Q]: no NaN, no infinities, no binary rounding, no overflow.  The
      properties that turn on those are stated on module [B64], which
      reads the release engine over IEEE 754 binary64.
    - The collector is modelled for days that have a next day; on the last
      day of the calendar ([last_day]) the code raises while computing the
      end of the time range, before any search.
    - Python dictionaries are association lists in insertion order, so that
      the full key list of a response can be inspected.
    - Effects are explicit.  The code runs in an error-and-state monad [M]
      over a [world] that records how many samples the process-wide random
      generator has produced and the trace of external calls.
    - What lives outside the repository (the search backend, the clock,
      [strptime], the string-to-float parser, the generator's output stream)
      is collected in a record [Env]. *)

From Stdlib Require Import ZArith QArith Qround List String Bool Lia.
From Stdlib Require Import Permutation Sorted Lqa DecimalString.
From Stdlib Require Import SpecFloat.
Import ListNotations.

Local Open Scope string_scope.
Local Open Scope Z_scope.

(** ** Python values *)

(** One (ip, count) tuple, as produced by the collector. *)
Definition record : Type := (string * Z)%type.

#[local] Set Warnings "-register-all".

Inductive value : Type :=
| VNone
| VBool (b : bool)
| VInt (z : Z)
| VFloat (q : Q)
| VStr (s : string)
| VPairs (l : list record)          (* a list of (ip, count) tuples *)
| VList (l : list value)
| VDict (d : list (string * value)).

Definition dict : Type := list (string * value).

Definition keys (d : dict) : list string := map fst d.

Fixpoint lookup (k : string) (d : dict) : option value :=
  match d with
  | [] => None
  | (k', v) :: d' => if String.eqb k k' then Some v else lookup k d'
  end.

(** [d[k] = v]: an existing key keeps its position and takes the new value,
    a new key is appended. *)
Fixpoint set_item (k : string) (v : value) (d : dict) : dict :=
  match d with
  | [] => [(k, v)]
  | (k', v') :: d' =>
      if String.eqb k k' then (k', v) :: d' else (k', v') :: set_item k v d'
  end.

(** [d.update(u)]: the items of [u] are set in order. *)
Definition update (d u : dict) : dict :=
  fold_left (fun acc kv => set_item (fst kv) (snd kv) acc) u d.

(** ** Exceptions *)

Inductive pyexc : Type :=
| ValueError (msg : string)
| TypeError (msg : string)
| AttributeError (msg : string)
| KeyError (key : string)
| ZeroDivisionError (msg : string)
| HTTPException (msg : string)
| Exception (msg : string).

(** [str(e)].  A [KeyError] prints the repr of the missing key. *)
Definition str_exc (e : pyexc) : string :=
  match e with
  | ValueError m | TypeError m | AttributeError m
  | ZeroDivisionError m | HTTPException m | Exception m => m
  | KeyError k => "'" ++ k ++ "'"
  end.

(** ** The world and the environment *)

Inductive event : Type :=
| EvSearch (date : string)      (* one [client.search] round trip *)
| EvSample (scale : Q).         (* one [np.random.laplace] draw *)

Record world : Type := mkWorld {
  draws : nat;                  (* samples taken from the generator so far *)
  trace : list event            (* external calls, oldest first *)
}.

Inductive es_outcome : Type :=
| SearchRaises (msg : string)           (* [client.search] raised; [msg] is its [str] *)
| ResponseMalformed (e : pyexc)         (* indexing the response raised [e] *)
| Buckets (bs : list record).           (* (key, doc_count) of every bucket *)

Record Env : Type := mkEnv {
  (* does [datetime.strptime(s, "%Y-%m-%d")] accept [s]? *)
  valid_date : string -> bool;
  (* what the backend answers for the day [s] *)
  es_search : string -> es_outcome;
  (* [datetime.now().strftime(...)] *)
  now : string;
  (* [float(s)] on a string; [None] when it raises [ValueError] *)
  float_of_string : string -> option Q;
  (* the [n]-th variate of the generator when asked for scale [b] *)
  laplace : nat -> Q -> Q
}.

(** ** The error-and-state monad *)

Definition M (A : Type) : Type := world -> (pyexc + A) * world.

Definition ret {A} (a : A) : M A := fun w => (inr a, w).

Definition raise {A} (e : pyexc) : M A := fun w => (inl e, w).

Definition bind {A B} (c : M A) (k : A -> M B) : M B :=
  fun w =>
    match c w with
    | (inl e, w') => (inl e, w')
    | (inr a, w') => k a w'
    end.

(** A pure computation that may raise, run without touching the world. *)
Definition lift {A} (r : pyexc + A) : M A := fun w => (r, w).

Notation "x <- c1 ;; c2" := (bind c1 (fun x => c2))
  (at level 61, c1 at next level, right associativity).

(** ** Numeric builtins *)

(** [sum(xs)] over integers. *)
Definition py_sum (xs : list Z) : Z := fold_left Z.add xs 0.

(** [max(xs)] over integers; an empty sequence raises. *)
Definition py_max (xs : list Z) : M Z :=
  match xs with
  | [] => raise (ValueError "max() arg is an empty sequence")
  | x :: xs' => ret (fold_left Z.max xs' x)
  end.

(** [round(x)]: nearest integer, ties to the even one. *)
Definition py_round (x : Q) : Z :=
  let f := Qfloor x in
  match ((x - inject_Z f) ?= (1 # 2))%Q with
  | Lt => f
  | Gt => f + 1
  | Eq => if Z.even f then f else f + 1
  end.

(** [round(x, 2)]: nearest multiple of 1/100, ties to even, as a
    reduced fraction. *)
Definition py_round2 (x : Q) : Q :=
  Qred (inject_Z (py_round (x * 100)%Q) / 100)%Q.

(** [a <= b] and [a > b] on floats. *)
Definition py_le (a b : Q) : bool := Qle_bool a b.

Definition py_gt (a b : Q) : bool := negb (Qle_bool a b).

(** [a / b] with [a] an integer and [b] a float. *)
Definition py_truediv (a : Z) (b : Q) : M Q :=
  if Qeq_bool b 0%Q then raise (ZeroDivisionError "float division by zero")
  else ret (inject_Z a / b)%Q.

(** [np.random.laplace(loc=0, scale=scale)]: a negative scale is refused;
    otherwise the generator advances by one sample. *)
Definition np_random_laplace (E : Env) (scale : Q) : M Q :=
  fun w =>
    if Qlt_le_dec scale 0%Q then (inl (ValueError "scale < 0"), w)
    else (inr (laplace E (draws w) scale),
          mkWorld (S (draws w)) (trace w ++ [EvSample scale])).

(** ** [sorted(attack_data, key=lambda x: x[1], reverse=True)] *)

(** Python's sort is stable, also under [reverse=True]: records with equal
    counts keep their input order.  Stable insertion produces that order. *)
Fixpoint insert_desc (x : record) (l : list record) : list record :=
  match l with
  | [] => [x]
  | y :: l' => if snd x <? snd y then y :: insert_desc x l' else x :: l
  end.

Definition sorted_by_count_desc (l : list record) : list record :=
  fold_right insert_desc [] l.

(** ** app.py: [apply_differential_privacy] *)

(** The Laplace mechanism on the day's collection.  The early return for
    an empty collection has six entries; the full release has seven. *)
Definition apply_differential_privacy (E : Env)
    (attack_data : list record) (epsilon : Q) : M dict :=
  match attack_data with
  | [] =>
      ret [ ("true_count", VInt 0);
            ("noisy_count", VInt 0);
            ("sensitivity", VInt 0);
            ("noise", VInt 0);
            ("noise_scale", VInt 0);
            ("num_ips", VInt 0) ]
  | _ :: _ =>
      let true_count := py_sum (map snd attack_data) in
      sensitivity <- py_max (map snd attack_data) ;;
      scale <- py_truediv sensitivity epsilon ;;
      noise <- np_random_laplace E scale ;;
      let noisy_count := Z.max 0 (py_round (inject_Z true_count + noise)%Q) in
      ret [ ("true_count", VInt true_count);
            ("noisy_count", VInt noisy_count);
            ("sensitivity", VInt sensitivity);
            ("noise", VFloat (py_round2 noise));
            ("noise_scale", VFloat (py_round2 scale));
            ("num_ips", VInt (Z.of_nat (List.length attack_data)));
            ("top_attackers", VPairs (firstn 5 (sorted_by_count_desc attack_data))) ]
  end.

(** ** Request-side builtins *)

(** [try: c  except ValueError: handler], continuing with [k] when [c]
    returns.  Any other exception propagates. *)
Definition try_except_ValueError {A B}
    (c : M A) (handler : M B) (k : A -> M B) : M B :=
  fun w =>
    match c w with
    | (inl (ValueError _), w') => handler w'
    | (inl e, w') => (inl e, w')
    | (inr a, w') => k a w'
    end.

(** [datetime.strptime(v, "%Y-%m-%d")].  The accepted string is returned
    and stands for the parsed day. *)
Definition strptime (E : Env) (v : value) : M string :=
  match v with
  | VStr s =>
      if valid_date E s then ret s
      else raise (ValueError ("time data '" ++ s ++ "' does not match format '%Y-%m-%d'"))
  | _ => raise (TypeError "strptime() argument 1 must be str")
  end.

(** [data.get(k, default)]; only a dictionary has [get]. *)
Definition py_get (data : value) (k : string) (default : value) : M value :=
  match data with
  | VDict d =>
      ret (match lookup k d with Some v => v | None => default end)
  | _ => raise (AttributeError "object has no attribute 'get'")
  end.

(** [d[k]]. *)
Definition getitem (d : dict) (k : string) : M value :=
  match lookup k d with
  | Some v => ret v
  | None => raise (KeyError k)
  end.

(** [float(v)]: a pure conversion that may raise. *)
Definition py_float (E : Env) (v : value) : pyexc + Q :=
  match v with
  | VFloat q => inr q
  | VInt z => inr (inject_Z z)
  | VBool b => inr (if b then 1%Q else 0%Q)
  | VStr s =>
      match float_of_string E s with
      | Some q => inr q
      | None => inl (ValueError ("could not convert string to float: '" ++ s ++ "'"))
      end
  | _ => inl (TypeError "float() argument must be a string or a real number")
  end.

(** ** fetch_day_attacks.py: [fetch_attacks_for_day] *)

(** [client.search(index=..., body=query)] for the day [day], followed by
    the walk down to the bucket list. *)
Definition client_search (E : Env) (day : string) : M (list record) :=
  fun w =>
    let w' := mkWorld (draws w) (trace w ++ [EvSearch day]) in
    match es_search E day with
    | SearchRaises msg =>
        (inl (Exception ("Elasticsearch query failed: " ++ msg)), w')
    | ResponseMalformed e => (inl e, w')
    | Buckets bs => (inr bs, w')
    end.

Definition fetch_attacks_for_day (E : Env) (date_str : string)
    : M (list record) :=
  try_except_ValueError (strptime E (VStr date_str))
    (raise (ValueError ("Invalid date format: " ++ date_str ++ ". Use YYYY-MM-DD")))
    (fun target_date =>
       buckets <- client_search E target_date ;;
       ret (map (fun bucket => (fst bucket, snd bucket)) buckets)).

(** ** app.py: [query] *)

(** A Flask response: the JSON body and the HTTP status. *)
Definition response : Type := (dict * Z)%type.

Definition jsonify (d : dict) : response := (d, 200).

Definition with_status (r : response) (code : Z) : response := (fst r, code).

(** [request.get_json()] either raises or yields the parsed body. *)
Definition request : Type := (pyexc + value)%type.

Definition get_json (req : request) : M value :=
  match req with
  | inl e => raise e
  | inr v => ret v
  end.

(** The list comprehension over [result["top_attackers"]]. *)
Definition top_attackers_json (v : value) : M value :=
  match v with
  | VPairs l =>
      ret (VList (map (fun r => VDict [("ip", VStr (fst r)); ("count", VInt (snd r))]) l))
  | _ => raise (TypeError "object is not iterable")
  end.

(** The body of the handler's [try] block. *)
Definition query_try (E : Env) (DEBUG_MODE : bool) (req : request)
    : M response :=
  data <- get_json req ;;
  date_str <- py_get data "date" VNone ;;
  eps_raw <- py_get data "epsilon" (VFloat 1) ;;
  epsilon <- lift (py_float E eps_raw) ;;
  try_except_ValueError (strptime E date_str)
    (ret (with_status
            (jsonify [("error", VStr "Invalid date format. Use YYYY-MM-DD")]) 400))
    (fun day =>
       if py_le epsilon 0 || py_gt epsilon 10 then
         ret (with_status
                (jsonify [("error", VStr "Epsilon must be between 0.1 and 10")]) 400)
       else
         attack_data <- fetch_attacks_for_day E day ;;
         result <- apply_differential_privacy E attack_data epsilon ;;
         noisy_count <- getitem result "noisy_count" ;;
         let response :=
           [ ("success", VBool true);
             ("date", date_str);
             ("epsilon", VFloat epsilon);
             ("query_time", VStr (now E));
             ("noisy_count", noisy_count);
             ("debug_mode", VBool DEBUG_MODE) ] in
         if DEBUG_MODE then
           sensitivity <- getitem result "sensitivity" ;;
           noise <- getitem result "noise" ;;
           noise_scale <- getitem result "noise_scale" ;;
           num_ips <- getitem result "num_ips" ;;
           true_count <- getitem result "true_count" ;;
           top <- getitem result "top_attackers" ;;
           top_attackers <- top_attackers_json top ;;
           ret (jsonify (update response
                  [ ("sensitivity", sensitivity);
                    ("noise", noise);
                    ("noise_scale", noise_scale);
                    ("num_ips", num_ips);
                    ("true_count", true_count);
                    ("top_attackers", top_attackers) ]))
         else
           ret (jsonify response)).

(** The handler: the body runs under [except Exception as e], which turns
    any exception into a 500 response carrying [str(e)]. *)
Definition query (E : Env) (DEBUG_MODE : bool) (req : request)
    : world -> response * world :=
  fun w =>
    match query_try E DEBUG_MODE req w with
    | (inr r, w') => (r, w')
    | (inl e, w') =>
        (with_status (jsonify [("error", VStr (str_exc e))]) 500, w')
    end.

(** ** app.py: [apply_differential_privacy] over binary64 *)

(** Where a property turns on rounding, overflow, signed zeros or NaN, the
    release engine is read again with Python's [float] as IEEE 754
    binary64, through the Standard Library's [spec_float] operations. *)
Module B64.

Definition prec : Z := 53.

Definition emax : Z := 1024.

(** A binary64 number. *)
Definition float : Type := spec_float.

Definition fzero : float := S754_zero false.

Inductive exc : Type :=
| OverflowError (msg : string)
| ZeroDivisionError (msg : string)
| ValueError (msg : string).

Inductive value : Type :=
| VInt (z : Z)
| VFloat (x : float)
| VPairs (l : list record).

Definition dict : Type := list (string * value).

Fixpoint lookup (k : string) (d : dict) : option value :=
  match d with
  | [] => None
  | (k', v) :: d' => if String.eqb k k' then Some v else lookup k d'
  end.

(** The process-wide generator: how many variates it has produced, and
    the scales it was asked for, oldest first. *)
Record world : Type := mkWorld {
  draws : nat;
  scales : list float
}.

Definition M (A : Type) : Type := world -> (exc + A) * world.

Definition ret {A} (a : A) : M A := fun w => (inr a, w).

Definition raise {A} (e : exc) : M A := fun w => (inl e, w).

Definition lift {A} (r : exc + A) : M A := fun w => (r, w).

Definition bind {A B} (c : M A) (k : A -> M B) : M B :=
  fun w =>
    match c w with
    | (inl e, w') => (inl e, w')
    | (inr a, w') => k a w'
    end.

#[local] Notation "x <-- c1 ;; c2" := (bind c1 (fun x => c2))
  (at level 61, c1 at next level, right associativity).

(** The rational a finite binary64 number stands for (0 for the others). *)
Definition to_Q (x : float) : Q :=
  match x with
  | S754_finite s m e => (inject_Z (cond_Zopp s (Zpos m)) * Qpower 2 e)%Q
  | _ => 0%Q
  end.

Definition is_nan (x : float) : bool :=
  match x with S754_nan => true | _ => false end.

Definition is_finite (x : float) : bool :=
  match x with S754_zero _ | S754_finite _ _ _ => true | _ => false end.

(** [signbit(x)]; a NaN made by arithmetic counts as unsigned. *)
Definition signbit (x : float) : bool :=
  match x with
  | S754_zero s | S754_infinity s | S754_finite s _ _ => s
  | S754_nan => false
  end.

(** The nearest integer to a rational, ties to the even one. *)
Definition round_half_even (q : Q) : Z := py_round q.

(** [float(z)] on an integer: the nearest binary64, ties to even; an
    integer that rounds past the largest finite number raises. *)
Definition float_of_int (z : Z) : exc + float :=
  match binary_normalize prec emax z 0 false with
  | S754_infinity _ => inl (OverflowError "int too large to convert to float")
  | x => inr x
  end.

(** [a / b] with [a] an integer and [b] a float: [a] is converted, a zero
    divisor (of either sign) raises, and the quotient is the binary64
    one, which may be infinite. *)
Definition py_truediv (a : Z) (b : float) : M float :=
  x <-- lift (float_of_int a) ;;
  if SFeqb b fzero then raise (ZeroDivisionError "float division by zero")
  else ret (SFdiv prec emax x b).

(** [a + b] with [a] an integer and [b] a float. *)
Definition py_add (a : Z) (b : float) : M float :=
  x <-- lift (float_of_int a) ;;
  ret (SFadd prec emax x b).

(** [round(x)]: infinities and NaN raise; otherwise the nearest integer
    to the exact value, ties to even. *)
Definition py_round (x : float) : exc + Z :=
  match x with
  | S754_nan => inl (ValueError "cannot convert float NaN to integer")
  | S754_infinity _ =>
      inl (OverflowError "cannot convert float infinity to integer")
  | _ => inr (round_half_even (to_Q x))
  end.

(** [round(x, 2)]: the exact value is rounded to hundredths, ties to
    even, and the binary64 nearest to that decimal is returned, with the
    sign of [x]; zeros and non-finite numbers are returned as they are.
    From 2^53 hundredths on, neighbouring numbers are more than 1/100
    apart and [x] itself is the nearest. *)
Definition py_round2 (x : float) : float :=
  match x with
  | S754_finite s _ _ =>
      let k := round_half_even (to_Q x * 100) in
      if Z.abs k <? 2 ^ 53 then
        match k with
        | 0 => S754_zero s
        | _ => SFdiv prec emax (binary_normalize prec emax k 0 false)
                               (binary_normalize prec emax 100 0 false)
        end
      else x
  | _ => x
  end.

(** [max(xs)] over integers; an empty sequence raises. *)
Definition py_max (xs : list Z) : M Z :=
  match xs with
  | [] => raise (ValueError "max() arg is an empty sequence")
  | x :: xs' => ret (fold_left Z.max xs' x)
  end.

(** [np.random.laplace(loc=0, scale=scale)]: a scale whose sign bit is
    set, -0.0 included, is refused unless it is NaN; otherwise the
    generator hands out its next variate for that scale, which [laplace]
    gives as a function of the variate's index. *)
Definition np_random_laplace (laplace : nat -> float -> float)
    (scale : float) : M float :=
  fun w =>
    if negb (is_nan scale) && signbit scale
    then (inl (ValueError "scale < 0"), w)
    else (inr (laplace (draws w) scale),
          mkWorld (S (draws w)) (scales w ++ [scale])).

Definition apply_differential_privacy (laplace : nat -> float -> float)
    (attack_data : list record) (epsilon : float) : M dict :=
  match attack_data with
  | [] =>
      ret [ ("true_count", VInt 0);
            ("noisy_count", VInt 0);
            ("sensitivity", VInt 0);
            ("noise", VInt 0);
            ("noise_scale", VInt 0);
            ("num_ips", VInt 0) ]
  | _ :: _ =>
      let true_count := py_sum (map snd attack_data) in
      sensitivity <-- py_max (map snd attack_data) ;;
      scale <-- py_truediv sensitivity epsilon ;;
      noise <-- np_random_laplace laplace scale ;;
      noised <-- py_add true_count noise ;;
      rounded <-- lift (py_round noised) ;;
      let noisy_count := Z.max 0 rounded in
      ret [ ("true_count", VInt true_count);
            ("noisy_count", VInt noisy_count);
            ("sensitivity", VInt sensitivity);
            ("noise", VFloat (py_round2 noise));
            ("noise_scale", VFloat (py_round2 scale));
            ("num_ips", VInt (Z.of_nat (List.length attack_data)));
            ("top_attackers",
             VPairs (firstn 5 (sorted_by_count_desc attack_data))) ]
  end.

(** [float(n) / float(d)], to write decimal constants. *)
Definition decimal (n d : Z) : float :=
  SFdiv prec emax (binary_normalize prec emax n 0 false)
                  (binary_normalize prec emax d 0 false).

(** The smallest positive binary64 number, 5e-324. *)
Definition smallest_positive : float := S754_finite false 1 (-1074).

Definition w0 : world := mkWorld 0 [].

End B64.

(** ** app.py: the mode flag *)

(** [DEBUG_MODE = '-d' in sys.argv or '--debug' in sys.argv]. *)
Definition debug_mode_of_argv (argv : list string) : bool :=
  existsb (String.eqb "-d") argv || existsb (String.eqb "--debug") argv.

(** ** fetch_day_attacks.py: the standalone entry point *)






(** ** Concrete environments *)

(** A backend that answers every day with [bs], a generator whose variate
    for scale [b] is [b * u], and a calendar with one valid day. *)
Definition sample_env (bs : list record) (u : Q) : Env :=
  mkEnv (fun s => String.eqb s "2025-01-15")
        (fun _ => Buckets bs)
        "2025-01-16 09:30:00"
        (fun _ => None)
        (fun _ b => (b * u)%Q).



Definition w0 : world := mkWorld 0 [].

Definition sample_request (epsilon : value) : request :=
  inr (VDict [("date", VStr "2025-01-15"); ("epsilon", epsilon)]).

(** The collection of the specification's example scenario. *)
Definition two_attackers : list record := [("1.2.3.4", 100); ("5.6.7.8", 20)].


(** * Vocabulary of the properties *)



(** The first five records of the sorted listing. *)
Definition top5 (l : list record) : list record :=
  firstn 5 (sorted_by_count_desc l).


(** The counts of a collection, in order. *)
Definition counts (data : list record) : list Z := map snd data.

(** The exact sum of a list of integers. *)
Definition total (xs : list Z) : Z := fold_right Z.add 0 xs.

(** [m] is the maximum of [xs]: it occurs in [xs] and bounds it. *)
Definition is_max (m : Z) (xs : list Z) : Prop :=
  In m xs /\ forall x, In x xs -> x <= m.

(** The data model's invariant: counts are non-negative. *)
Definition nonneg_counts (data : list record) : Prop :=
  Forall (fun r => 0 <= snd r) data.

(** The sensitivity the code derives from [r :: rest]. *)
Definition sensitivity_of (r : record) (rest : list record) : Z :=
  fold_left Z.max (counts rest) (snd r).

(** Every count of the collection is 0 (this includes the empty one). *)
Definition all_zero (data : list record) : Prop :=
  Forall (fun r => snd r = 0) data.

(** The keys of every successful response. *)
Definition base_keys : list string :=
  ["success"; "date"; "epsilon"; "query_time"; "noisy_count"; "debug_mode"].

(** The diagnostic keys, which the specification calls sensitivity, noise,
    noiseScale, numIdentifiers, trueCount and topContributors. *)
Definition debug_keys : list string :=
  ["sensitivity"; "noise"; "noise_scale"; "num_ips"; "true_count"; "top_attackers"].

(** The diagnostic keys under either spelling. *)
Definition withheld_keys : list string :=
  (debug_keys ++ ["noiseScale"; "numIdentifiers"; "trueCount"; "topContributors"])%list.



(** [data.get('epsilon', 1.0)] and [data.get('date')] on a dictionary body. *)
Definition epsilon_field (body : dict) : value :=
  match lookup "epsilon" body with Some v => v | None => VFloat 1 end.

Definition date_field (body : dict) : value :=
  match lookup "date" body with Some v => v | None => VNone end.

(** A response is an error when its body is exactly one [error] message and
    its status is 400 or 500. *)
Definition error_response (r : response) : Prop :=
  exists msg, fst r = [("error", VStr msg)] /\ (snd r = 400 \/ snd r = 500).

(** A response is a success when its status is 200, it carries
    [success: true] and the mode flag, and its keys are the base keys,
    followed in debug mode by the diagnostic keys. *)
Definition success_response (dbg : bool) (r : response) : Prop :=
  snd r = 200
  /\ keys (fst r) = (base_keys ++ (if dbg then debug_keys else []))%list
  /\ lookup "success" (fst r) = Some (VBool true)
  /\ lookup "debug_mode" (fst r) = Some (VBool dbg).

(** The trace of [w'] is the trace of [w] followed by [evs]. *)
Definition appended (w w' : world) (evs : list event) : Prop :=
  trace w' = (trace w ++ evs)%list.

(** [n] is the integer nearest to [q], the even one when [q] lies half way
    between two integers. *)
Definition nearest_integer_ties_even (n : Z) (q : Q) : Prop :=
  (inject_Z n - (1 # 2) <= q)%Q
  /\ (q <= inject_Z n + (1 # 2))%Q
  /\ ((q == inject_Z n - (1 # 2) \/ q == inject_Z n + (1 # 2))%Q ->
      Z.even n = true).


(** * Properties *)

(** ** The stable descending sort *)











(** ** Sum, maximum and scale *)

Lemma fold_left_add (xs : list Z) (a : Z) :
  fold_left Z.add xs a = a + total xs.
Proof.
  revert a. induction xs as [|x xs IH]; simpl; intros a.
  - lia.
  - rewrite IH. lia.
Qed.

Lemma py_sum_total (xs : list Z) : py_sum xs = total xs.
Proof. unfold py_sum. rewrite fold_left_add. lia. Qed.

Lemma fold_left_max_ge (xs : list Z) (a : Z) :
  a <= fold_left Z.max xs a /\
  forall x, In x xs -> x <= fold_left Z.max xs a.
Proof.
  revert a. induction xs as [|x xs IH]; simpl; intros a.
  - split; [lia | contradiction].
  - destruct (IH (Z.max a x)) as [H1 H2]. split; [lia|].
    intros y [<-|Hy]; [lia | now apply H2].
Qed.

Lemma fold_left_max_in (xs : list Z) (a : Z) :
  In (fold_left Z.max xs a) (a :: xs).
Proof.
  revert a. induction xs as [|x xs IH]; simpl; intros a.
  - now left.
  - destruct (IH (Z.max a x)) as [H|H].
    + destruct (Z.max_spec a x) as [[_ E]|[_ E]]; rewrite E in *.
      * right. now left.
      * now left.
    + right. now right.
Qed.

Lemma fold_left_max_is_max (x : Z) (xs : list Z) :
  is_max (fold_left Z.max xs x) (x :: xs).
Proof.
  split; [apply fold_left_max_in|].
  destruct (fold_left_max_ge xs x) as [H1 H2].
  intros y [<-|Hy]; [exact H1 | now apply H2].
Qed.

Lemma is_max_unique (m m' : Z) (xs : list Z) :
  is_max m xs -> is_max m' xs -> m = m'.
Proof.
  intros [Hin Hle] [Hin' Hle'].
  apply Hle' in Hin. apply Hle in Hin'. lia.
Qed.

Lemma is_max_nonneg (m : Z) (data : list record) :
  nonneg_counts data -> is_max m (counts data) -> 0 <= m.
Proof.
  intros Hn [Hin _]. unfold counts in Hin.
  apply in_map_iff in Hin. destruct Hin as [r [<- Hr]].
  unfold nonneg_counts in Hn. rewrite Forall_forall in Hn. now apply Hn.
Qed.

Lemma scale_nonneg (m : Z) (eps : Q) :
  0 <= m -> (0 < eps)%Q -> (0 <= inject_Z m / eps)%Q.
Proof.
  intros Hm He. apply Qle_shift_div_l; [exact He|].
  rewrite Qmult_0_l. change 0%Q with (inject_Z 0).
  rewrite <- Zle_Qle. exact Hm.
Qed.

Lemma pos_not_zero (eps : Q) : (0 < eps)%Q -> Qeq_bool eps 0 = false.
Proof.
  intros He. destruct (Qeq_bool eps 0) eqn:Hb; [|reflexivity].
  apply Qeq_bool_iff in Hb. rewrite Hb in He.
  exfalso. revert He. apply Qlt_irrefl.
Qed.

(** ** The release engine on a non-empty collection *)

(** With a non-zero epsilon and a non-negative scale, the release of a
    non-empty collection succeeds after exactly one draw. *)
Lemma apply_dp_nonempty (E : Env) (r : record) (rest : list record)
    (eps : Q) (w : world) :
  let data := r :: rest in
  let scale := (inject_Z (sensitivity_of r rest) / eps)%Q in
  let noise := laplace E (draws w) scale in
  Qeq_bool eps 0 = false ->
  (0 <= scale)%Q ->
  apply_differential_privacy E data eps w =
    (inr [ ("true_count", VInt (py_sum (counts data)));
           ("noisy_count",
            VInt (Z.max 0 (py_round (inject_Z (py_sum (counts data)) + noise)%Q)));
           ("sensitivity", VInt (sensitivity_of r rest));
           ("noise", VFloat (py_round2 noise));
           ("noise_scale", VFloat (py_round2 scale));
           ("num_ips", VInt (Z.of_nat (List.length data)));
           ("top_attackers", VPairs (top5 data)) ],
     mkWorld (S (draws w)) (trace w ++ [EvSample scale])).
Proof.
  intros data scale noise Hz Hs.
  unfold apply_differential_privacy, data, bind, py_max, py_truediv,
    np_random_laplace, ret, raise.
  cbn [map]. rewrite Hz.
  change (fold_left Z.max (map snd rest) (snd r)) with (sensitivity_of r rest).
  fold scale.
  destruct (Qlt_le_dec scale 0) as [Hlt|_].
  - exfalso. exact (Qlt_not_le _ _ Hlt Hs).
  - reflexivity.
Qed.

Lemma apply_dp_wellformed (E : Env) (r : record) (rest : list record)
    (eps : Q) (w : world) :
  let data := r :: rest in
  let scale := (inject_Z (sensitivity_of r rest) / eps)%Q in
  let noise := laplace E (draws w) scale in
  (0 < eps)%Q ->
  nonneg_counts data ->
  apply_differential_privacy E data eps w =
    (inr [ ("true_count", VInt (py_sum (counts data)));
           ("noisy_count",
            VInt (Z.max 0 (py_round (inject_Z (py_sum (counts data)) + noise)%Q)));
           ("sensitivity", VInt (sensitivity_of r rest));
           ("noise", VFloat (py_round2 noise));
           ("noise_scale", VFloat (py_round2 scale));
           ("num_ips", VInt (Z.of_nat (List.length data)));
           ("top_attackers", VPairs (top5 data)) ],
     mkWorld (S (draws w)) (trace w ++ [EvSample scale])).
Proof.
  intros data scale noise He Hn.
  apply apply_dp_nonempty.
  - now apply pos_not_zero.
  - apply scale_nonneg; [|exact He].
    apply (is_max_nonneg _ data Hn).
    apply fold_left_max_is_max.
Qed.

(** ** Rounding respects equality of rationals *)

Lemma py_round_comp (x y : Q) : (x == y)%Q -> py_round x = py_round y.
Proof.
  intros H. unfold py_round.
  rewrite (Qfloor_comp x y H).
  assert (Hc : ((x - inject_Z (Qfloor y)) ?= (1 # 2))%Q
             = ((y - inject_Z (Qfloor y)) ?= (1 # 2))%Q)
    by (now rewrite H).
  rewrite Hc. reflexivity.
Qed.

Lemma py_round2_comp (x y : Q) : (x == y)%Q -> py_round2 x = py_round2 y.
Proof.
  intros H. unfold py_round2.
  rewrite (py_round_comp (x * 100) (y * 100)); [reflexivity|].
  now rewrite H.
Qed.

(** ** The empty collection *)

(** C6.  For an empty collection and any epsilon the release is exactly the
    six-field all-zero dictionary, and the world is left as it was: no
    sample is drawn and no external call is made. *)
Theorem empty_collection_release (E : Env) (eps : Q) (w : world) :
  apply_differential_privacy E [] eps w =
    (inr [ ("true_count", VInt 0);
           ("noisy_count", VInt 0);
           ("sensitivity", VInt 0);
           ("noise", VInt 0);
           ("noise_scale", VInt 0);
           ("num_ips", VInt 0) ],
     w)
  /\ draws (snd (apply_differential_privacy E [] eps w)) = draws w
  /\ trace (snd (apply_differential_privacy E [] eps w)) = trace w.
Proof. repeat split. Qed.

(** ** The top contributors *)



(** ** Zero sensitivity *)

Lemma all_zero_nonneg (data : list record) :
  all_zero data -> nonneg_counts data.
Proof.
  unfold all_zero, nonneg_counts. apply Forall_impl. intros r ->. lia.
Qed.

Lemma all_zero_total (data : list record) :
  all_zero data -> total (counts data) = 0.
Proof.
  unfold counts, total.
  induction 1 as [|r data Hr _ IH]; simpl; [reflexivity|].
  rewrite Hr, IH. reflexivity.
Qed.

Lemma all_zero_sensitivity (r : record) (rest : list record) :
  all_zero (r :: rest) -> sensitivity_of r rest = 0.
Proof.
  intros Hz.
  destruct (fold_left_max_is_max (snd r) (counts rest)) as [Hin _].
  fold (sensitivity_of r rest) in Hin.
  change (snd r :: counts rest) with (counts (r :: rest)) in Hin.
  unfold counts in Hin. apply in_map_iff in Hin.
  destruct Hin as [x [<- Hx]].
  unfold all_zero in Hz. rewrite Forall_forall in Hz. now apply Hz.
Qed.

(** C2, as the code has it.  With every count equal to 0 the release
    succeeds with sensitivity 0 and true count 0.  Only the empty collection
    short-circuits: the world is untouched and noise and noisy count are 0.
    A non-empty all-zero collection still draws one sample, at scale
    0 / epsilon = 0; when that variate is 0, the disclosed noise is 0 and
    the noisy count equals the true count. *)
Theorem zero_sensitivity_release
    (E : Env) (data : list record) (eps : Q) (w : world) :
  (0 < eps)%Q ->
  all_zero data ->
  exists result w',
    apply_differential_privacy E data eps w = (inr result, w')
    /\ lookup "sensitivity" result = Some (VInt 0)
    /\ lookup "true_count" result = Some (VInt 0)
    /\ (data = [] ->
        w' = w
        /\ lookup "noise" result = Some (VInt 0)
        /\ lookup "noisy_count" result = Some (VInt 0))
    /\ (data <> [] ->
        w' = mkWorld (S (draws w)) (trace w ++ [EvSample (inject_Z 0 / eps)])
        /\ (inject_Z 0 / eps == 0)%Q
        /\ ((laplace E (draws w) (inject_Z 0 / eps) == 0)%Q ->
            lookup "noise" result = Some (VFloat 0)
            /\ lookup "noisy_count" result = Some (VInt 0))).
Proof.
  intros He Hz.
  destruct data as [|r rest].
  - eexists. eexists. split; [reflexivity|].
    split; [reflexivity|]. split; [reflexivity|].
    split; [intros _; repeat split | intros H; contradiction].
  - eexists. eexists.
    split; [apply apply_dp_wellformed; [exact He | now apply all_zero_nonneg]|].
    rewrite py_sum_total, (all_zero_total _ Hz), (all_zero_sensitivity _ _ Hz).
    split; [reflexivity|]. split; [reflexivity|].
    split; [discriminate|].
    intros _. split; [reflexivity|].
    split; [apply Qmult_0_l|].
    intros H0. cbn [lookup String.eqb Ascii.eqb Bool.eqb].
    rewrite (py_round2_comp _ 0 H0).
    rewrite (py_round_comp _ 0); [split; reflexivity|].
    rewrite H0. reflexivity.
Qed.

Lemma zero_sensitivity_release_witness :
  exists result w',
    apply_differential_privacy (sample_env [] 1) [("10.0.0.1", 0)] 1 w0
      = (inr result, w')
    /\ lookup "sensitivity" result = Some (VInt 0)
    /\ lookup "true_count" result = Some (VInt 0)
    /\ w' = mkWorld 1 [EvSample (inject_Z 0 / 1)]
    /\ lookup "noise" result = Some (VFloat 0)
    /\ lookup "noisy_count" result = Some (VInt 0).
Proof.
  destruct (zero_sensitivity_release (sample_env [] 1) [("10.0.0.1", 0)] 1 w0)
    as [result [w' [Hrun [Hs [Ht [_ Hne]]]]]].
  - reflexivity.
  - repeat constructor.
  - destruct Hne as [Hw [_ Hnoise]]; [discriminate|].
    destruct Hnoise as [Hn Hc]; [reflexivity|].
    exists result, w'. repeat split; assumption.
Defined.

(** C2, as stated, fails: a single identifier with count 0 has sensitivity 0,
    yet the release takes a sample from the generator. *)
Lemma all_zero_collection_still_draws :
  exists result w',
    apply_differential_privacy (sample_env [] 1) [("10.0.0.1", 0)] 1 w0
      = (inr result, w')
    /\ lookup "sensitivity" result = Some (VInt 0)
    /\ draws w' = S (draws w0)
    /\ trace w' = [EvSample (inject_Z 0 / 1)].
Proof.
  eexists. eexists. split; [reflexivity|]. repeat split.
Qed.

(** ** Rounding is to the nearest *)

Lemma py_round_nearest (x : Q) :
  (inject_Z (py_round x) - (1 # 2) <= x)%Q /\
  (x <= inject_Z (py_round x) + (1 # 2))%Q.
Proof.
  unfold py_round.
  pose proof (Qfloor_le x) as Hlo.
  pose proof (Qlt_floor x) as Hhi.
  rewrite inject_Z_plus in Hhi. change (inject_Z 1) with 1%Q in Hhi.
  set (f := Qfloor x) in *.
  assert (Hup : (inject_Z (f + 1) == inject_Z f + 1)%Q)
    by (rewrite inject_Z_plus; reflexivity).
  destruct ((x - inject_Z f) ?= (1 # 2))%Q eqn:Hc.
  - apply Qeq_alt in Hc.
    destruct (Z.even f); [|rewrite Hup]; split; lra.
  - apply Qlt_alt in Hc. split; lra.
  - apply Qgt_alt in Hc. rewrite Hup. split; lra.
Qed.


(** ** Disclosed noise against the noise that was added *)


(** [round] on a rational gives the nearest integer, the even one on a tie. *)
Lemma py_round_ties_even (x : Q) : nearest_integer_ties_even (py_round x) x.
Proof.
  destruct (py_round_nearest x) as [Hlo Hhi].
  split; [exact Hlo|]. split; [exact Hhi|].
  unfold py_round in *.
  pose proof (Qfloor_le x) as Hfl.
  pose proof (Qlt_floor x) as Hfh.
  rewrite inject_Z_plus in Hfh. change (inject_Z 1) with 1%Q in Hfh.
  set (f := Qfloor x) in *.
  assert (Hup : (inject_Z (f + 1) == inject_Z f + 1)%Q)
    by (rewrite inject_Z_plus; reflexivity).
  destruct ((x - inject_Z f) ?= (1 # 2))%Q eqn:Hc.
  - intros _. destruct (Z.even f) eqn:He; [exact He|].
    rewrite Z.even_add, He. reflexivity.
  - apply Qlt_alt in Hc. intros [H|H]; exfalso; lra.
  - apply Qgt_alt in Hc. intros [H|H]; rewrite Hup in H; exfalso; lra.
Qed.

(** ** The release engine over binary64 *)

Lemma positive_not_zero (eps : B64.float) :
  SFltb B64.fzero eps = true -> SFeqb eps B64.fzero = false.
Proof. destruct eps as [[|]|[|]| |[|] m e]; simpl; try discriminate; reflexivity. Qed.

Lemma positive_signbit (eps : B64.float) :
  SFltb B64.fzero eps = true -> B64.signbit eps = false /\ B64.is_nan eps = false.
Proof. destruct eps as [[|]|[|]| |[|] m e]; simpl; try discriminate; split; reflexivity. Qed.

(** Rounding keeps the sign it is given. *)
Lemma binary_round_aux_sign (sx : bool) (mx ex : Z) (lx : location) :
  B64.signbit (binary_round_aux B64.prec B64.emax sx mx ex lx) = sx
  \/ binary_round_aux B64.prec B64.emax sx mx ex lx = S754_nan.
Proof.
  unfold binary_round_aux.
  destruct (shr_fexp _ _ mx ex lx) as [mrs' e'].
  destruct (shr_fexp _ _ _ e' loc_Exact) as [mrs'' e''].
  destruct (shr_m mrs'') as [|m|m].
  - now left.
  - destruct (e'' <=? _); now left.
  - now right.
Qed.

(** A non-negative number divided by a positive one is never refused by
    the sampler. *)
Lemma quotient_is_accepted (x eps : B64.float) :
  B64.signbit x = false ->
  SFltb B64.fzero eps = true ->
  negb (B64.is_nan (SFdiv B64.prec B64.emax x eps))
  && B64.signbit (SFdiv B64.prec B64.emax x eps) = false.
Proof.
  intros Hx He.
  destruct eps as [[|]|[|]| |[|] my ey]; simpl in He; try discriminate;
    destruct x as [sx|sx| |sx mx ex]; simpl in Hx; subst; try reflexivity.
  unfold SFdiv.
  destruct (SFdiv_core_binary _ _ _ _ _ _) as [[mz ez] lz].
  destruct (binary_round_aux_sign (xorb false false) mz ez lz) as [H|H];
    rewrite H; [apply andb_false_r | reflexivity].
Qed.

Lemma float_of_int_nonneg_sign (z : Z) (x : B64.float) :
  0 <= z -> B64.float_of_int z = inr x -> B64.signbit x = false.
Proof.
  intros Hz. unfold B64.float_of_int, binary_normalize.
  destruct z as [|m|m]; [| |lia].
  - intros H. injection H as <-. reflexivity.
  - unfold binary_round.
    destruct (shl_align _ _ _) as [mz ez].
    destruct (binary_round_aux_sign false (Zpos mz) ez loc_Exact) as [H|H].
    + destruct (binary_round_aux _ _ _ _ _ _); intros E;
        try discriminate; injection E as <-; exact H.
    + rewrite H. intros E. injection E as <-. reflexivity.
Qed.

(** The release of a non-empty collection of non-negative counts with a
    positive epsilon, step by step. *)
Lemma b64_release_nonempty (laplace : nat -> B64.float -> B64.float)
    (r : record) (rest : list record) (eps : B64.float) (w : B64.world) :
  let data := r :: rest in
  let m := sensitivity_of r rest in
  SFltb B64.fzero eps = true ->
  nonneg_counts data ->
  B64.apply_differential_privacy laplace data eps w =
    match B64.float_of_int m with
    | inl e => (inl e, w)
    | inr fm =>
        let scale := SFdiv B64.prec B64.emax fm eps in
        let noise := laplace (B64.draws w) scale in
        let w1 := B64.mkWorld (S (B64.draws w)) (B64.scales w ++ [scale]) in
        match B64.float_of_int (py_sum (counts data)) with
        | inl e => (inl e, w1)
        | inr ft =>
            match B64.py_round (SFadd B64.prec B64.emax ft noise) with
            | inl e => (inl e, w1)
            | inr n =>
                (inr [ ("true_count", B64.VInt (py_sum (counts data)));
                       ("noisy_count", B64.VInt (Z.max 0 n));
                       ("sensitivity", B64.VInt m);
                       ("noise", B64.VFloat (B64.py_round2 noise));
                       ("noise_scale", B64.VFloat (B64.py_round2 scale));
                       ("num_ips", B64.VInt (Z.of_nat (List.length data)));
                       ("top_attackers", B64.VPairs (top5 data)) ],
                 w1)
            end
        end
    end.
Proof.
  intros data m He Hn.
  assert (Hm : 0 <= m).
  { apply (is_max_nonneg m data Hn). apply fold_left_max_is_max. }
  unfold B64.apply_differential_privacy, data, B64.bind, B64.py_max,
    B64.py_truediv, B64.py_add, B64.np_random_laplace, B64.lift,
    B64.ret, B64.raise, B64.bind.
  cbn [map].
  change (fold_left Z.max (map snd rest) (snd r)) with m.
  change (snd r :: map snd rest) with (counts (r :: rest)).
  destruct (B64.float_of_int m) as [e|fm] eqn:Hfm; [reflexivity|].
  rewrite (positive_not_zero eps He).
  rewrite (quotient_is_accepted fm eps
             (float_of_int_nonneg_sign m fm Hm Hfm) He).
  cbn [B64.draws B64.scales].
  destruct (B64.float_of_int (py_sum (counts (r :: rest)))) as [e|ft];
    [reflexivity|].
  destruct (B64.py_round _) as [e|n]; reflexivity.
Qed.

Lemma b64_py_round_finite (x : B64.float) :
  B64.is_finite x = true ->
  B64.py_round x = inr (B64.round_half_even (B64.to_Q x)).
Proof. destruct x; simpl; try discriminate; reflexivity. Qed.

Lemma b64_py_round_not_finite (x : B64.float) :
  B64.is_finite x = false -> exists e, B64.py_round x = inl e.
Proof. destruct x; simpl; try discriminate; intros _; eexists; reflexivity. Qed.

Lemma b64_py_round_inr (x : B64.float) (n : Z) :
  B64.py_round x = inr n ->
  B64.is_finite x = true /\ n = B64.round_half_even (B64.to_Q x).
Proof.
  destruct x; simpl; try discriminate; intros H; injection H as <-;
    split; reflexivity.
Qed.

(** C4, as the code has it.  For a non-empty collection of non-negative
    counts and a positive epsilon, with [m] the maximum count: a release
    that returns discloses [m] as sensitivity; whenever the sampler is
    called, returning or not, it is called once, with the binary64
    quotient of [float(m)] by epsilon as scale; and the release returns
    whenever [m] and the true count convert to binary64 and the noised sum
    is finite. *)
Theorem binary64_sensitivity_is_max_and_scale_is_float_quotient
    (laplace : nat -> B64.float -> B64.float)
    (data : list record) (eps : B64.float) (w : B64.world) :
  data <> [] ->
  SFltb B64.fzero eps = true ->
  nonneg_counts data ->
  exists m,
    is_max m (counts data)
    /\ (forall result w',
          B64.apply_differential_privacy laplace data eps w = (inr result, w') ->
          B64.lookup "sensitivity" result = Some (B64.VInt m)
          /\ exists fm,
               B64.float_of_int m = inr fm
               /\ w' = B64.mkWorld (S (B64.draws w))
                         (B64.scales w ++ [SFdiv B64.prec B64.emax fm eps]))
    /\ (forall e w',
          B64.apply_differential_privacy laplace data eps w = (inl e, w') ->
          w' = w
          \/ exists fm,
               B64.float_of_int m = inr fm
               /\ w' = B64.mkWorld (S (B64.draws w))
                         (B64.scales w ++ [SFdiv B64.prec B64.emax fm eps]))
    /\ (forall fm ft,
          B64.float_of_int m = inr fm ->
          B64.float_of_int (total (counts data)) = inr ft ->
          B64.is_finite
            (SFadd B64.prec B64.emax ft
               (laplace (B64.draws w) (SFdiv B64.prec B64.emax fm eps))) = true ->
          exists result,
            B64.apply_differential_privacy laplace data eps w =
              (inr result,
               B64.mkWorld (S (B64.draws w))
                 (B64.scales w ++ [SFdiv B64.prec B64.emax fm eps]))).
Proof.
  intros Hne He Hn.
  destruct data as [|r rest]; [contradiction|].
  exists (sensitivity_of r rest).
  split; [apply fold_left_max_is_max|].
  rewrite (b64_release_nonempty laplace r rest eps w He Hn).
  rewrite <- py_sum_total.
  destruct (B64.float_of_int (sensitivity_of r rest)) as [e0|fm].
  { split; [intros ? ? H; discriminate|].
    split; [intros e w' H; injection H as _ <-; now left|].
    intros ? ? H. discriminate. }
  cbv zeta.
  destruct (B64.float_of_int (py_sum (counts (r :: rest)))) as [e0|ft].
  { split; [intros ? ? H; discriminate|].
    split; [intros e w' H; injection H as _ <-; right; now exists fm|].
    intros ? ? _ H. discriminate. }
  destruct (B64.py_round _) as [e0|n] eqn:Hr.
  - split; [intros ? ? H; discriminate|].
    split; [intros e w' H; injection H as _ <-; right; now exists fm|].
    intros fm' ft' Hfm' Hft' Hfin. injection Hfm' as <-. injection Hft' as <-.
    rewrite (b64_py_round_finite _ Hfin) in Hr. discriminate.
  - split.
    + intros result w' H. injection H as <- <-.
      split; [reflexivity | now exists fm].
    + split; [intros ? ? H; discriminate|].
      intros fm' ft' Hfm' Hft' _. injection Hfm' as <-. eexists. reflexivity.
Qed.

Lemma binary64_sensitivity_is_max_and_scale_is_float_quotient_witness :
  exists result,
    B64.apply_differential_privacy (fun _ _ => B64.decimal 1496 1000)
      two_attackers (B64.decimal 1 2) B64.w0 =
      (inr result, B64.mkWorld 1 [B64.decimal 200 1])
    /\ B64.lookup "sensitivity" result = Some (B64.VInt 100).
Proof.
  destruct (binary64_sensitivity_is_max_and_scale_is_float_quotient
              (fun _ _ => B64.decimal 1496 1000)
              two_attackers (B64.decimal 1 2) B64.w0)
    as [m [Hmax [Hret [_ Hfin]]]].
  - discriminate.
  - reflexivity.
  - repeat constructor; simpl; lia.
  - assert (Hm : m = 100).
    { apply (is_max_unique m 100 (counts two_attackers) Hmax).
      split; [cbn; tauto|]. intros x Hx. cbn in Hx. intuition lia. }
    subst m.
    destruct (Hfin (B64.decimal 100 1) (B64.decimal 120 1))
      as [result Hrun]; [reflexivity | reflexivity | reflexivity |].
    exists result. split.
    + rewrite Hrun. reflexivity.
    + exact (proj1 (Hret _ _ Hrun)).
Defined.

(** C4, as stated, fails.  With one count of 1 and epsilon 3.0 the scale
    handed to the sampler is not 1/3; with counts 100 and 20 and epsilon
    5e-324 it is infinite (and the release raises). *)
Lemma binary64_scale_is_not_the_exact_quotient :
  (exists result w' scale,
      B64.apply_differential_privacy (fun _ _ => B64.fzero)
        [("1.2.3.4", 1)] (B64.decimal 3 1) B64.w0 = (inr result, w')
      /\ B64.lookup "sensitivity" result = Some (B64.VInt 1)
      /\ B64.scales w' = [scale]
      /\ ~ (B64.to_Q scale == inject_Z 1 / B64.to_Q (B64.decimal 3 1))%Q)
  /\ (exists e w',
      B64.apply_differential_privacy (fun _ scale => scale)
        two_attackers B64.smallest_positive B64.w0 = (inl e, w')
      /\ B64.scales w' = [S754_infinity false]).
Proof.
  split.
  - eexists. eexists. eexists.
    split; [vm_compute; reflexivity|].
    split; [reflexivity|]. split; [reflexivity|].
    vm_compute. discriminate.
  - eexists. eexists. split; [vm_compute; reflexivity|]. reflexivity.
Qed.

(** C5, as the code has it.  For a collection of non-negative counts and a
    positive epsilon: a release that returns discloses the exact sum as
    true count and a non-negative noisy count, which is 0 for the empty
    collection and otherwise [max(0, n)] with [n] the integer nearest
    (ties to even) to the binary64 sum of [float(true_count)] and the
    drawn noise, a finite number.  The empty collection always returns;
    a non-empty one returns when that sum is finite and raises, after
    the draw, when it is not. *)
Theorem binary64_noisy_count_is_clamped_nearest_integer
    (laplace : nat -> B64.float -> B64.float)
    (data : list record) (eps : B64.float) (w : B64.world) :
  SFltb B64.fzero eps = true ->
  nonneg_counts data ->
  (forall result w',
      B64.apply_differential_privacy laplace data eps w = (inr result, w') ->
      exists noisy,
        B64.lookup "true_count" result = Some (B64.VInt (total (counts data)))
        /\ B64.lookup "noisy_count" result = Some (B64.VInt noisy)
        /\ 0 <= noisy
        /\ ((data = [] /\ w' = w /\ noisy = 0)
            \/ exists scale ft n,
                 data <> []
                 /\ w' = B64.mkWorld (S (B64.draws w)) (B64.scales w ++ [scale])
                 /\ B64.float_of_int (total (counts data)) = inr ft
                 /\ B64.is_finite
                      (SFadd B64.prec B64.emax ft (laplace (B64.draws w) scale))
                    = true
                 /\ nearest_integer_ties_even n
                      (B64.to_Q (SFadd B64.prec B64.emax ft
                                   (laplace (B64.draws w) scale)))
                 /\ noisy = Z.max 0 n))
  /\ (data = [] ->
      exists result,
        B64.apply_differential_privacy laplace data eps w = (inr result, w))
  /\ (forall m fm ft,
        is_max m (counts data) ->
        B64.float_of_int m = inr fm ->
        B64.float_of_int (total (counts data)) = inr ft ->
        let scale := SFdiv B64.prec B64.emax fm eps in
        let noised := SFadd B64.prec B64.emax ft (laplace (B64.draws w) scale) in
        let w1 := B64.mkWorld (S (B64.draws w)) (B64.scales w ++ [scale]) in
        (B64.is_finite noised = true ->
         exists result,
           B64.apply_differential_privacy laplace data eps w = (inr result, w1))
        /\ (B64.is_finite noised = false ->
            exists e,
              B64.apply_differential_privacy laplace data eps w = (inl e, w1))).
Proof.
  intros He Hn.
  destruct data as [|r rest].
  { split; [|split].
    - intros result w' H. injection H as <- <-.
      exists 0. split; [reflexivity|]. split; [reflexivity|].
      split; [lia|]. left. repeat split.
    - intros _. eexists. reflexivity.
    - intros m fm ft [Hin _]. contradiction. }
  rewrite (b64_release_nonempty laplace r rest eps w He Hn).
  rewrite <- py_sum_total.
  split; [|split].
  - intros result w' H.
    destruct (B64.float_of_int (sensitivity_of r rest)) as [e0|fm];
      [discriminate|].
    cbv zeta in H.
    destruct (B64.float_of_int (py_sum (counts (r :: rest)))) as [e0|ft];
      [discriminate|].
    destruct (B64.py_round _) as [e0|n] eqn:Hr; [discriminate|].
    injection H as <- <-.
    destruct (b64_py_round_inr _ _ Hr) as [Hfin Hn'].
    exists (Z.max 0 n).
    split; [reflexivity|]. split; [reflexivity|]. split; [lia|].
    right. exists (SFdiv B64.prec B64.emax fm eps), ft, n.
    split; [discriminate|]. split; [reflexivity|]. split; [reflexivity|].
    split; [exact Hfin|]. split; [|reflexivity].
    rewrite Hn'. apply py_round_ties_even.
  - intros H. discriminate.
  - intros m fm ft Hmax Hfm Hft.
    assert (Hm : m = sensitivity_of r rest).
    { apply (is_max_unique _ _ (counts (r :: rest)) Hmax).
      apply fold_left_max_is_max. }
    subst m. rewrite Hfm, Hft. cbv zeta. split; intros Hfin.
    + rewrite (b64_py_round_finite _ Hfin). eexists. reflexivity.
    + destruct (b64_py_round_not_finite _ Hfin) as [e He'].
      rewrite He'. exists e. reflexivity.
Qed.

Lemma binary64_noisy_count_is_clamped_nearest_integer_witness :
  exists result,
    B64.apply_differential_privacy (fun _ scale => SFopp (SFadd B64.prec B64.emax scale scale))
      two_attackers (B64.decimal 1 1) B64.w0 =
      (inr result, B64.mkWorld 1 [B64.decimal 100 1])
    /\ B64.lookup "true_count" result = Some (B64.VInt 120)
    /\ B64.lookup "noisy_count" result = Some (B64.VInt 0).
Proof.
  destruct (binary64_noisy_count_is_clamped_nearest_integer
              (fun _ scale => SFopp (SFadd B64.prec B64.emax scale scale))
              two_attackers (B64.decimal 1 1) B64.w0)
    as [Hret [_ Hfin]].
  - reflexivity.
  - repeat constructor; simpl; lia.
  - assert (Hmax : is_max 100 (counts two_attackers)).
    { split; [cbn; tauto|]. intros x Hx. cbn in Hx. intuition lia. }
    destruct (proj1 (Hfin 100 (B64.decimal 100 1) (B64.decimal 120 1)
                       Hmax eq_refl eq_refl) eq_refl)
      as [result Hrun].
    exists result. split; [exact Hrun|].
    destruct (Hret _ _ Hrun) as [noisy [Ht [Hnc _]]].
    split; [exact Ht|].
    assert (Hrun' := Hrun). vm_compute in Hrun'.
    injection Hrun' as Hres. subst result. reflexivity.
Defined.

(** C5, as stated, fails.  With epsilon 5e-324 the scale and the noise
    are infinite and the release raises instead of returning a noisy
    count; with true count 121 and noise 0.49999999999999994 the binary64
    sum is 121.5 and the noisy count is 122, where rounding the exact sum
    gives 121. *)
Lemma binary64_release_can_raise_and_rounds_the_float_sum :
  (exists e w',
      B64.apply_differential_privacy (fun _ scale => scale)
        two_attackers B64.smallest_positive B64.w0 = (inl e, w')
      /\ B64.draws w' = 1%nat)
  /\ (exists result w',
      B64.apply_differential_privacy
        (fun _ _ => S754_finite false 9007199254740991 (-54))
        [("1.2.3.4", 121)] (B64.decimal 1 1) B64.w0 = (inr result, w')
      /\ B64.lookup "true_count" result = Some (B64.VInt 121)
      /\ B64.lookup "noisy_count" result = Some (B64.VInt 122)
      /\ Z.max 0 (py_round (inject_Z 121
                            + B64.to_Q (S754_finite false 9007199254740991 (-54)))%Q)
         = 121).
Proof.
  split.
  - eexists. eexists. split; [vm_compute; reflexivity|]. reflexivity.
  - eexists. eexists. split; [vm_compute; reflexivity|].
    split; [reflexivity|]. split; [reflexivity|]. vm_compute. reflexivity.
Qed.

(** ** The shape of every response *)

(** Case analysis on the innermost scrutinee of a hypothesis. *)
Ltac break_hyp_match H :=
  match type of H with
  | context [match ?x with _ => _ end] =>
      lazymatch x with
      | context [match _ with _ => _ end] => fail
      | _ => destruct x eqn:?
      end
  end.

Ltac run_query H :=
  unfold query, query_try, bind, lift, get_json, py_get,
    try_except_ValueError, strptime, fetch_attacks_for_day,
    try_except_ValueError, strptime, client_search,
    apply_differential_privacy, bind, py_max, py_truediv,
    np_random_laplace, getitem, top_attackers_json, ret, raise,
    jsonify, with_status in H;
  repeat (break_hyp_match H;
          cbn [map lookup String.eqb Ascii.eqb Bool.eqb fst snd trace draws] in H;
          try discriminate).

Ltac solve_shape :=
  first [ left; eexists; split; [reflexivity | cbn; auto]
        | right; unfold success_response; cbn; repeat split; reflexivity ].

Ltac solve_appended :=
  unfold appended; cbn [trace];
  first [ left; rewrite app_nil_r; reflexivity
        | right; left; eexists; reflexivity
        | right; right; eexists; eexists; rewrite <- app_assoc; reflexivity ].

(** Every run of the handler ends in an error response or in a success
    response, after at most one search followed by at most one sample. *)
Lemma query_cases (E : Env) (dbg : bool) (req : request) (w : world)
    (r : response) (w' : world) :
  query E dbg req w = (r, w') ->
  (error_response r \/ success_response dbg r)
  /\ (appended w w' []
      \/ (exists day, appended w w' [EvSearch day])
      \/ (exists day scale, appended w w' [EvSearch day; EvSample scale])).
Proof.
  intros H. run_query H.
  all: injection H as <- <-.
  all: split; [solve_shape | solve_appended].
Qed.

(** ** The epsilon window *)

Lemma out_of_range_test (eps : Q) :
  (eps <= 0 \/ 10 < eps)%Q -> py_le eps 0 || py_gt eps 10 = true.
Proof.
  unfold py_le, py_gt. intros [H|H].
  - apply Qle_bool_iff in H. rewrite H. reflexivity.
  - apply orb_true_iff. right.
    destruct (Qle_bool eps 10) eqn:Hb; [|reflexivity].
    apply Qle_bool_iff in Hb. exfalso. exact (Qlt_not_le _ _ H Hb).
Qed.

Lemma in_range_test (eps : Q) :
  (0 < eps)%Q -> (eps <= 10)%Q -> py_le eps 0 || py_gt eps 10 = false.
Proof.
  unfold py_le, py_gt. intros Hpos Hle.
  apply Qle_bool_iff in Hle. rewrite Hle.
  destruct (Qle_bool eps 0) eqn:Hb; [|reflexivity].
  apply Qle_bool_iff in Hb. exfalso. exact (Qlt_not_le _ _ Hpos Hb).
Qed.

(** ** Requests that pass validation *)

(** Unfolds the handler on a dictionary body up to the range test. *)
Ltac enter_query Hdate Hvalid Hfloat :=
  unfold date_field, epsilon_field in *;
  unfold query, query_try, bind, lift, get_json, py_get, ret,
    try_except_ValueError, strptime;
  cbv beta iota; rewrite Hdate, Hfloat; cbv beta iota;
  rewrite Hvalid; cbv beta iota.

Lemma query_out_of_range (E : Env) (dbg : bool) (body : dict) (w : world)
    (day : string) (eps : Q) :
  date_field body = VStr day ->
  valid_date E day = true ->
  py_float E (epsilon_field body) = inr eps ->
  py_le eps 0 || py_gt eps 10 = true ->
  query E dbg (inr (VDict body)) w =
    (([("error", VStr "Epsilon must be between 0.1 and 10")], 400), w).
Proof.
  intros Hdate Hvalid Hfloat Hrange.
  enter_query Hdate Hvalid Hfloat.
  rewrite Hrange. reflexivity.
Qed.


Lemma query_empty_collection (E : Env) (dbg : bool) (body : dict) (w : world)
    (day : string) (eps : Q) :
  date_field body = VStr day ->
  valid_date E day = true ->
  py_float E (epsilon_field body) = inr eps ->
  py_le eps 0 || py_gt eps 10 = false ->
  es_search E day = Buckets [] ->
  query E dbg (inr (VDict body)) w =
    (if dbg
     then ([("error", VStr "'top_attackers'")], 500)
     else ([ ("success", VBool true);
             ("date", VStr day);
             ("epsilon", VFloat eps);
             ("query_time", VStr (now E));
             ("noisy_count", VInt 0);
             ("debug_mode", VBool false) ], 200),
     mkWorld (draws w) (trace w ++ [EvSearch day])).
Proof.
  intros Hdate Hvalid Hfloat Hrange Hes.
  enter_query Hdate Hvalid Hfloat.
  rewrite Hrange.
  unfold fetch_attacks_for_day, try_except_ValueError, strptime,
    client_search, bind, ret.
  rewrite Hvalid. cbv beta iota. rewrite Hes.
  destruct dbg; reflexivity.
Qed.


Lemma error_status_not_200 (r : response) :
  error_response r -> snd r <> 200.
Proof. intros [msg [_ [H|H]]]; rewrite H; discriminate. Qed.

(** ** Debug mode on an empty collection *)

(** C1.  What the code does on a debug-mode query whose collection is
    empty: the release of an empty collection has no [top_attackers] entry,
    the handler reads it all the same, and the request ends in a 500 error
    whose message is the missing key.  The same request in production mode
    succeeds with noisy count 0. *)
Theorem debug_query_on_empty_collection_is_an_error
    (E : Env) (body : dict) (w : world) (day : string) (eps : Q) :
  date_field body = VStr day ->
  valid_date E day = true ->
  py_float E (epsilon_field body) = inr eps ->
  (0 < eps)%Q ->
  (eps <= 10)%Q ->
  es_search E day = Buckets [] ->
  query E true (inr (VDict body)) w =
    (([("error", VStr "'top_attackers'")], 500),
     mkWorld (draws w) (trace w ++ [EvSearch day]))
  /\ query E false (inr (VDict body)) w =
    (([ ("success", VBool true);
        ("date", VStr day);
        ("epsilon", VFloat eps);
        ("query_time", VStr (now E));
        ("noisy_count", VInt 0);
        ("debug_mode", VBool false) ], 200),
     mkWorld (draws w) (trace w ++ [EvSearch day])).
Proof.
  intros Hdate Hvalid Hfloat Hpos Hle Hes.
  pose proof (in_range_test eps Hpos Hle) as Hrange.
  split.
  - exact (query_empty_collection E true body w day eps
             Hdate Hvalid Hfloat Hrange Hes).
  - exact (query_empty_collection E false body w day eps
             Hdate Hvalid Hfloat Hrange Hes).
Qed.

Lemma debug_query_on_empty_collection_is_an_error_witness :
  query (sample_env [] 1) true (sample_request (VFloat 1)) w0 =
    (([("error", VStr "'top_attackers'")], 500),
     mkWorld 0 [EvSearch "2025-01-15"]).
Proof.
  apply (proj1 (debug_query_on_empty_collection_is_an_error
                  (sample_env [] 1)
                  [("date", VStr "2025-01-15"); ("epsilon", VFloat 1)]
                  w0 "2025-01-15" 1
                  eq_refl eq_refl eq_refl eq_refl
                  ltac:(discriminate) eq_refl)).
Defined.

(** ** Production mode *)

(** C3.  In production mode no response, whatever the request, has a
    diagnostic key; a response served with status 200 has exactly the keys
    success, date, epsilon, query_time, noisy_count and debug_mode, and any
    other response has the single key error. *)
Theorem production_response_has_no_diagnostic_key
    (E : Env) (req : request) (w : world) :
  let r := fst (query E false req w) in
  (forall k, In k withheld_keys -> ~ In k (keys (fst r)))
  /\ (snd r = 200 -> keys (fst r) = base_keys)
  /\ (snd r <> 200 -> keys (fst r) = ["error"]).
Proof.
  cbv zeta.
  destruct (query E false req w) as [r w'] eqn:H.
  apply query_cases in H. destruct H as [[Herr|Hok] _]; cbn [fst].
  - pose proof (error_status_not_200 r Herr) as Hst.
    destruct Herr as [msg [Hbody _]].
    rewrite Hbody. cbn [keys map fst].
    split; [|split].
    + intros k Hk [Hin|[]]. subst k.
      cbn in Hk. intuition discriminate.
    + intros H200. contradiction.
    + reflexivity.
  - destruct Hok as [Hst [Hkeys _]].
    rewrite Hkeys, app_nil_r.
    split; [|split].
    + intros k Hk Hin. cbn in Hk, Hin.
      intuition (subst; discriminate).
    + reflexivity.
    + intros Hn. contradiction.
Qed.

(** ** Epsilon outside the window *)

(** C7.  A request whose epsilon converts to a number that is at most 0 or
    above 10 gets an error response and leaves the world untouched: no
    search is sent and no sample is drawn.  When its date is valid, the
    error is the 400 epsilon message. *)
Theorem out_of_range_epsilon_is_rejected
    (E : Env) (dbg : bool) (body : dict) (w : world) (eps : Q) :
  py_float E (epsilon_field body) = inr eps ->
  (eps <= 0 \/ 10 < eps)%Q ->
  exists msg code,
    query E dbg (inr (VDict body)) w = (([("error", VStr msg)], code), w)
    /\ (code = 400 \/ code = 500)
    /\ (forall day,
          date_field body = VStr day ->
          valid_date E day = true ->
          msg = "Epsilon must be between 0.1 and 10" /\ code = 400).
Proof.
  intros Hfloat Hout.
  apply out_of_range_test in Hout.
  destruct (date_field body) as [| | | |day| | |] eqn:Hdate.
  5: destruct (valid_date E day) eqn:Hvalid.
  5: { exists "Epsilon must be between 0.1 and 10", 400.
       split; [apply (query_out_of_range E dbg body w day eps); assumption|].
       split; [now left|]. intros _ _ _. split; reflexivity. }
  5: { exists "Invalid date format. Use YYYY-MM-DD", 400.
       split.
       - enter_query Hdate Hvalid Hfloat. reflexivity.
       - split; [now left|]. intros day' Hday' Hvalid'.
         injection Hday' as <-. congruence. }
  all: exists "strptime() argument 1 must be str", 500.
  all: split;
    [ unfold date_field, epsilon_field in *;
      unfold query, query_try, bind, lift, get_json, py_get, ret,
        try_except_ValueError, strptime;
      cbv beta iota; rewrite Hdate, Hfloat; reflexivity
    | split; [now right | intros day' Hday'; discriminate] ].
Qed.

Lemma out_of_range_epsilon_is_rejected_witness :
  (exists msg code,
      query (sample_env two_attackers 1) false (sample_request (VFloat 11)) w0
        = (([("error", VStr msg)], code), w0)
      /\ msg = "Epsilon must be between 0.1 and 10" /\ code = 400)
  /\ (exists msg code,
      query (sample_env two_attackers 1) true (sample_request (VInt 0)) w0
        = (([("error", VStr msg)], code), w0)
      /\ msg = "Epsilon must be between 0.1 and 10" /\ code = 400).
Proof.
  split.
  - destruct (out_of_range_epsilon_is_rejected
                (sample_env two_attackers 1) false
                [("date", VStr "2025-01-15"); ("epsilon", VFloat 11)]
                w0 11 eq_refl (or_intror eq_refl))
      as [msg [code [Hrun [_ Hmsg]]]].
    exists msg, code. split; [exact Hrun|].
    apply (Hmsg "2025-01-15"); reflexivity.
  - destruct (out_of_range_epsilon_is_rejected
                (sample_env two_attackers 1) true
                [("date", VStr "2025-01-15"); ("epsilon", VInt 0)]
                w0 0 eq_refl (or_introl (Qle_refl 0)))
      as [msg [code [Hrun [_ Hmsg]]]].
    exists msg, code. split; [exact Hrun|].
    apply (Hmsg "2025-01-15"); reflexivity.
Defined.

(** ** Failures *)




(** * Further properties of the collector and the handler *)

(** ** The collector *)



(** The collector on a day that [strptime] refuses. *)
Lemma fetch_invalid_date (E : Env) (day : string) (w : world) :
  valid_date E day = false ->
  fetch_attacks_for_day E day w =
    (inl (ValueError ("Invalid date format: " ++ day ++ ". Use YYYY-MM-DD")), w).
Proof.
  intros Hvalid.
  unfold fetch_attacks_for_day, try_except_ValueError, strptime, raise.
  rewrite Hvalid. reflexivity.
Qed.

(** X1.  A day that [strptime] refuses makes the collector raise
    [ValueError] with its own message, before any search is sent: the
    world is left exactly as it was. *)
Theorem fetch_refuses_invalid_day_before_search
    (E : Env) (day : string) (w : world) :
  valid_date E day = false ->
  fetch_attacks_for_day E day w =
    (inl (ValueError ("Invalid date format: " ++ day ++ ". Use YYYY-MM-DD")), w).
Proof. apply fetch_invalid_date. Qed.

Lemma fetch_refuses_invalid_day_before_search_witness :
  fetch_attacks_for_day (sample_env two_attackers 1) "15/01/2025" w0 =
    (inl (ValueError "Invalid date format: 15/01/2025. Use YYYY-MM-DD"), w0).
Proof.
  apply (fetch_refuses_invalid_day_before_search
           (sample_env two_attackers 1) "15/01/2025" w0).
  reflexivity.
Defined.



(** ** Requests that never reach the collector *)

(** X3.  The date is validated before the epsilon window: a body whose
    date is a string that [strptime] refuses is answered 400 with the date
    message, whatever number the epsilon field converts to, and the world
    is untouched. *)
Theorem invalid_date_is_rejected_before_epsilon_window
    (E : Env) (dbg : bool) (body : dict) (w : world) (day : string) (eps : Q) :
  date_field body = VStr day ->
  valid_date E day = false ->
  py_float E (epsilon_field body) = inr eps ->
  query E dbg (inr (VDict body)) w =
    (([("error", VStr "Invalid date format. Use YYYY-MM-DD")], 400), w).
Proof.
  intros Hdate Hvalid Hfloat.
  enter_query Hdate Hvalid Hfloat. reflexivity.
Qed.

Lemma invalid_date_is_rejected_before_epsilon_window_witness :
  query (sample_env two_attackers 1) true
    (inr (VDict [("date", VStr "15/01/2025"); ("epsilon", VFloat 99)])) w0 =
    (([("error", VStr "Invalid date format. Use YYYY-MM-DD")], 400), w0).
Proof.
  apply (invalid_date_is_rejected_before_epsilon_window
           (sample_env two_attackers 1) true
           [("date", VStr "15/01/2025"); ("epsilon", VFloat 99)]
           w0 "15/01/2025" 99);
    reflexivity.
Defined.

(** X4.  The epsilon is converted before the date is looked at: when
    [float] raises on the epsilon field, the answer is 500 with that
    exception's message and the world is untouched, also when the date is
    missing or invalid (no 400 is produced). *)
Theorem unconvertible_epsilon_is_a_500
    (E : Env) (dbg : bool) (body : dict) (w : world) (e : pyexc) :
  py_float E (epsilon_field body) = inl e ->
  query E dbg (inr (VDict body)) w =
    (([("error", VStr (str_exc e))], 500), w).
Proof.
  intros Hfloat.
  unfold epsilon_field in Hfloat.
  unfold query, query_try, bind, lift, get_json, py_get, ret.
  cbv beta iota. rewrite Hfloat. reflexivity.
Qed.

Lemma unconvertible_epsilon_is_a_500_witness :
  query (sample_env two_attackers 1) false
    (inr (VDict [("date", VStr "15/01/2025"); ("epsilon", VStr "abc")])) w0 =
    (([("error", VStr "could not convert string to float: 'abc'")], 500), w0).
Proof.
  apply (unconvertible_epsilon_is_a_500
           (sample_env two_attackers 1) false
           [("date", VStr "15/01/2025"); ("epsilon", VStr "abc")]
           w0 (ValueError "could not convert string to float: 'abc'")).
  reflexivity.
Defined.

(** X5.  A request whose JSON cannot be read is answered 500 with the
    message of the exception raised; a body that is not an object, and an
    object with no date or a date that is not a string (once its epsilon has
    converted), are answered 500 with a single error message.  None of
    them touches the world. *)
Theorem malformed_request_is_a_500
    (E : Env) (dbg : bool) (w : world) :
  (forall e,
      query E dbg (inl e) w = (([("error", VStr (str_exc e))], 500), w))
  /\ (forall v,
        (forall d, v <> VDict d) ->
        exists msg,
          query E dbg (inr v) w = (([("error", VStr msg)], 500), w))
  /\ (forall body eps,
        (forall day, date_field body <> VStr day) ->
        py_float E (epsilon_field body) = inr eps ->
        exists msg,
          query E dbg (inr (VDict body)) w = (([("error", VStr msg)], 500), w)).
Proof.
  split; [|split].
  - intros e. reflexivity.
  - intros v Hv. destruct v; try (eexists; reflexivity).
    exfalso. now apply (Hv d).
  - intros body eps Hdate Hfloat.
    unfold date_field, epsilon_field in *.
    unfold query, query_try, bind, lift, get_json, py_get, ret,
      try_except_ValueError, strptime.
    cbv beta iota. rewrite Hfloat. cbv beta iota.
    destruct (match lookup "date" body with Some v => v | None => VNone end);
      try (eexists; reflexivity).
    exfalso. now apply (Hdate s).
Qed.

(** ** Only two fields of the body matter *)

Lemma query_depends_on_two_fields
    (E : Env) (dbg : bool) (b1 b2 : dict) (w : world) :
  date_field b1 = date_field b2 ->
  epsilon_field b1 = epsilon_field b2 ->
  query E dbg (inr (VDict b1)) w = query E dbg (inr (VDict b2)) w.
Proof.
  unfold date_field, epsilon_field. intros Hd He.
  unfold query, query_try, bind, lift, get_json, py_get, ret.
  cbv beta iota. rewrite Hd, He. reflexivity.
Qed.

Lemma lookup_app_other (k k' : string) (v : value) (d : dict) :
  k <> k' -> lookup k (d ++ [(k', v)])%list = lookup k d.
Proof.
  intros Hk. induction d as [|[k0 v0] d IH]; simpl.
  - destruct (String.eqb_spec k k'); [contradiction | reflexivity].
  - destruct (String.eqb k k0); [reflexivity | exact IH].
Qed.

Lemma lookup_app_new (k : string) (v : value) (d : dict) :
  lookup k d = None -> lookup k (d ++ [(k, v)])%list = Some v.
Proof.
  induction d as [|[k0 v0] d IH]; simpl.
  - intros _. now rewrite String.eqb_refl.
  - destruct (String.eqb k k0); [discriminate | exact IH].
Qed.

(** X6.  A body without an [epsilon] key is handled exactly as the same
    body with [epsilon = 1.0]: same response, same effects. *)
Theorem missing_epsilon_defaults_to_one
    (E : Env) (dbg : bool) (body : dict) (w : world) :
  lookup "epsilon" body = None ->
  query E dbg (inr (VDict body)) w =
  query E dbg (inr (VDict (body ++ [("epsilon", VFloat 1)])%list)) w.
Proof.
  intros Hnone.
  apply query_depends_on_two_fields.
  - unfold date_field. rewrite lookup_app_other; [reflexivity | discriminate].
  - unfold epsilon_field. rewrite Hnone, (lookup_app_new _ _ _ Hnone).
    reflexivity.
Qed.

Lemma missing_epsilon_defaults_to_one_witness :
  query (sample_env two_attackers (-3)) true
    (inr (VDict [("date", VStr "2025-01-15")])) w0 =
  query (sample_env two_attackers (-3)) true
    (inr (VDict [("date", VStr "2025-01-15"); ("epsilon", VFloat 1)])) w0.
Proof.
  apply (missing_epsilon_defaults_to_one
           (sample_env two_attackers (-3)) true
           [("date", VStr "2025-01-15")] w0).
  reflexivity.
Defined.

(** X7.  The handler reads nothing of the body but [date] and [epsilon]:
    two bodies that agree on those two lookups get the same response and
    cause the same effects, whatever other keys they carry. *)
Theorem other_request_keys_are_ignored
    (E : Env) (dbg : bool) (b1 b2 : dict) (w : world) :
  lookup "date" b1 = lookup "date" b2 ->
  lookup "epsilon" b1 = lookup "epsilon" b2 ->
  query E dbg (inr (VDict b1)) w = query E dbg (inr (VDict b2)) w.
Proof.
  intros Hd He. apply query_depends_on_two_fields.
  - unfold date_field. now rewrite Hd.
  - unfold epsilon_field. now rewrite He.
Qed.

Lemma other_request_keys_are_ignored_witness :
  query (sample_env two_attackers 1) false
    (inr (VDict [("date", VStr "2025-01-15"); ("epsilon", VInt 2)])) w0 =
  query (sample_env two_attackers 1) false
    (inr (VDict [("debug", VBool true); ("epsilon", VInt 2);
                 ("date", VStr "2025-01-15"); ("seed", VInt 50)])) w0.
Proof.
  apply (other_request_keys_are_ignored
           (sample_env two_attackers 1) false
           [("date", VStr "2025-01-15"); ("epsilon", VInt 2)]
           [("debug", VBool true); ("epsilon", VInt 2);
            ("date", VStr "2025-01-15"); ("seed", VInt 50)] w0);
    reflexivity.
Defined.

(** ** Invariants of a release *)









(** ** The release engine called with an epsilon outside its domain *)

Lemma negative_scale (m : Z) (eps : Q) :
  0 < m -> (eps < 0)%Q -> (inject_Z m / eps < 0)%Q.
Proof.
  intros Hm He. destruct eps as [[|p|p] d].
  - exfalso. revert He. unfold Qlt. simpl. lia.
  - exfalso. revert He. unfold Qlt. simpl. lia.
  - unfold Qdiv, Qinv, Qmult, Qlt. simpl. lia.
Qed.

Lemma Qeq_bool_true_zero (eps : Q) : (eps == 0)%Q -> Qeq_bool eps 0 = true.
Proof. intros H. now apply Qeq_bool_iff. Qed.

Lemma neg_not_zero (eps : Q) : (eps < 0)%Q -> Qeq_bool eps 0 = false.
Proof.
  intros He. destruct (Qeq_bool eps 0) eqn:Hb; [|reflexivity].
  apply Qeq_bool_iff in Hb. rewrite Hb in He.
  exfalso. revert He. apply Qlt_irrefl.
Qed.

(** X11.  The release engine does not check epsilon itself: on a
    non-empty collection, epsilon = 0, and a negative epsilon with some
    positive count, make it raise, and this happens before any sample is
    drawn. *)
Theorem release_engine_does_not_validate_epsilon
    (E : Env) (data : list record) (eps : Q) (w : world) :
  data <> [] ->
  ((eps == 0)%Q ->
   exists e, apply_differential_privacy E data eps w = (inl e, w))
  /\ ((eps < 0)%Q ->
      (exists r, In r data /\ 0 < snd r) ->
      exists e, apply_differential_privacy E data eps w = (inl e, w)).
Proof.
  intros Hne.
  destruct data as [|r rest]; [contradiction|].
  split.
  - intros Hz. eexists.
    unfold apply_differential_privacy, bind, py_max, py_truediv, ret, raise.
    cbn [map]. rewrite (Qeq_bool_true_zero eps Hz). reflexivity.
  - intros He [x [Hx Hpos]]. eexists.
    unfold apply_differential_privacy, bind, py_max, py_truediv,
      np_random_laplace, ret, raise.
    cbn [map]. rewrite (neg_not_zero eps He).
    change (fold_left Z.max (map snd rest) (snd r)) with (sensitivity_of r rest).
    assert (Hm : 0 < sensitivity_of r rest).
    { destruct (fold_left_max_is_max (snd r) (counts rest)) as [_ Hmax].
      fold (sensitivity_of r rest) in Hmax.
      assert (snd x <= sensitivity_of r rest).
      { apply Hmax. change (snd r :: counts rest) with (counts (r :: rest)).
        unfold counts. now apply in_map. }
      lia. }
    destruct (Qlt_le_dec (inject_Z (sensitivity_of r rest) / eps) 0) as [_|Hle].
    + reflexivity.
    + exfalso. exact (Qlt_not_le _ _ (negative_scale _ _ Hm He) Hle).
Qed.

Lemma release_engine_does_not_validate_epsilon_witness :
  (exists e,
      apply_differential_privacy (sample_env [] 1) two_attackers 0 w0
        = (inl e, w0))
  /\ (exists e,
      apply_differential_privacy (sample_env [] 1) two_attackers (-1) w0
        = (inl e, w0)).
Proof.
  split.
  - apply (proj1 (release_engine_does_not_validate_epsilon
                    (sample_env [] 1) two_attackers 0 w0 ltac:(discriminate))).
    reflexivity.
  - apply (proj2 (release_engine_does_not_validate_epsilon
                    (sample_env [] 1) two_attackers (-1) w0 ltac:(discriminate))).
    + reflexivity.
    + exists ("1.2.3.4", 100). split; [now left | reflexivity].
Defined.

(** ** What the disclosure mode can and cannot change *)

(** Case analysis on the innermost scrutinee of the goal. *)
Ltac break_goal_match :=
  match goal with
  | |- context [match ?x with _ => _ end] =>
      lazymatch x with
      | context [match _ with _ => _ end] => fail
      | _ => destruct x eqn:?
      end
  end.

(** X14.  The disclosure mode has no influence on what the handler does
    to the world (searches sent, samples drawn).  A request served in
    debug mode is served in production mode with the same success flag,
    date, epsilon, timestamp and noisy count; a request refused in
    production mode is refused in debug mode with the same response. *)
Theorem disclosure_mode_changes_no_effect_and_no_released_number
    (E : Env) (req : request) (w : world) :
  snd (query E true req w) = snd (query E false req w)
  /\ (snd (fst (query E true req w)) = 200 ->
      snd (fst (query E false req w)) = 200
      /\ forall k,
           In k ["success"; "date"; "epsilon"; "query_time"; "noisy_count"] ->
           lookup k (fst (fst (query E true req w)))
           = lookup k (fst (fst (query E false req w))))
  /\ (snd (fst (query E false req w)) <> 200 ->
      fst (query E true req w) = fst (query E false req w)).
Proof.
  unfold query, query_try, bind, lift, get_json, py_get,
    try_except_ValueError, strptime, fetch_attacks_for_day,
    try_except_ValueError, strptime, client_search,
    apply_differential_privacy, bind, py_max, py_truediv,
    np_random_laplace, getitem, top_attackers_json, ret, raise,
    jsonify, with_status.
  repeat (break_goal_match;
          cbn [map lookup String.eqb Ascii.eqb Bool.eqb fst snd trace draws]).
  all: split; [reflexivity|split].
  all: try (intros H; discriminate H).
  all: try (intros H; exfalso; apply H; reflexivity).
  all: try (intros _; reflexivity).
  all: intros _; split; [reflexivity|].
  all: intros k Hk; cbn in Hk;
    repeat (destruct Hk as [<-|Hk]; [reflexivity|]); contradiction.
Qed.

(** X15.  A run of the handler sends at most one search and draws at
    most one sample, and it never draws without having searched first:
    either no sample is drawn and at most one search was sent, or exactly
    one search was followed by exactly one sample. *)
Theorem handler_draws_at_most_one_sample_after_its_search
    (E : Env) (dbg : bool) (req : request) (w : world) :
  (draws (snd (query E dbg req w)) = draws w
   /\ (trace (snd (query E dbg req w)) = trace w
       \/ exists day,
            trace (snd (query E dbg req w)) = (trace w ++ [EvSearch day])%list))
  \/ (draws (snd (query E dbg req w)) = S (draws w)
      /\ exists day scale,
           trace (snd (query E dbg req w))
           = (trace w ++ [EvSearch day; EvSample scale])%list).
Proof.
  destruct dbg.
  all: unfold query, query_try, bind, lift, get_json, py_get,
    try_except_ValueError, strptime, fetch_attacks_for_day,
    try_except_ValueError, strptime, client_search,
    apply_differential_privacy, bind, py_max, py_truediv,
    np_random_laplace, getitem, top_attackers_json, ret, raise,
    jsonify, with_status.
  all: repeat (break_goal_match;
          cbn [map lookup String.eqb Ascii.eqb Bool.eqb fst snd trace draws]).
  all: first
    [ left; split; [reflexivity|]; left; reflexivity
    | left; split; [reflexivity|]; right; eexists; reflexivity
    | right; split; [reflexivity|]; eexists; eexists;
      rewrite <- app_assoc; reflexivity ].
Qed.

(** ** The mode flag read from the command line *)

Lemma existsb_eqb_In (s : string) (l : list string) :
  existsb (String.eqb s) l = true <-> In s l.
Proof.
  rewrite existsb_exists. split.
  - intros [x [Hx Heq]]. apply String.eqb_eq in Heq. now subst.
  - intros H. exists s. split; [exact H | apply String.eqb_refl].
Qed.

(** X16.  Debug mode is on exactly when ["-d"] or ["--debug"] occurs
    somewhere on the command line; a server started with neither answers
    every request without any diagnostic key. *)
Theorem debug_mode_needs_a_flag_on_the_command_line
    (E : Env) (argv : list string) (req : request) (w : world) :
  (debug_mode_of_argv argv = true <-> In "-d" argv \/ In "--debug" argv)
  /\ (~ In "-d" argv -> ~ In "--debug" argv ->
      forall k, In k withheld_keys ->
                ~ In k (keys (fst (fst (query E (debug_mode_of_argv argv) req w))))).
Proof.
  assert (Hiff : debug_mode_of_argv argv = true
                 <-> In "-d" argv \/ In "--debug" argv).
  { unfold debug_mode_of_argv. rewrite orb_true_iff, !existsb_eqb_In. tauto. }
  split; [exact Hiff|].
  intros Hd Hdd.
  assert (Hoff : debug_mode_of_argv argv = false).
  { destruct (debug_mode_of_argv argv); [|reflexivity].
    exfalso. destruct (proj1 Hiff eq_refl); contradiction. }
  rewrite Hoff.
  destruct (query E false req w) as [r w'] eqn:H.
  apply query_cases in H. destruct H as [[Herr|Hok] _]; cbn [fst].
  - destruct Herr as [msg [Hbody _]]. rewrite Hbody.
    intros k Hk [Hin|[]]. subst k. cbn in Hk. intuition discriminate.
  - destruct Hok as [_ [Hkeys _]]. rewrite Hkeys, app_nil_r.
    intros k Hk Hin. cbn in Hk, Hin. intuition (subst; discriminate).
Qed.

(** ** The collector's standalone entry point *)








(** ** A backend answer that cannot be read *)


